(** * DevHub layout components: Column highlight border and Sidebar logic

  A shallow embedding of the behaviour found in
  [components/layout/Column.tsx] (the [FOCUS_ON_COLUMN] listener and its
  [setTimeout]) and [components/layout/Sidebar.tsx] (derived flags, the
  scroll-to-focus layout effect, the settings / item press handlers and
  the per-item rendering guard).

  Conventions.  JavaScript strings are [string]; [undefined] is [None];
  [Date.now()] is an explicit [Z] argument; refs are fields of a state
  record; calls to store actions, to the emitter and to the list control
  are recorded, in program order, in a list of effects. *)

From Stdlib Require Import String List ZArith Bool Lia QArith.
Import ListNotations.

Local Open Scope string_scope.
Local Open Scope Z_scope.

(** ** JavaScript value conventions used by both components *)

Module JS.

(** [!!s] for a string: only the empty string is falsy. *)
Definition truthy_string (s : string) : bool := negb (String.eqb s "").

(** [!!n] for an integer-valued number: only zero is falsy. *)
Definition truthy_number (n : Z) : bool := negb (n =? 0).

(** [!!b] for [b : boolean | undefined]. *)
Definition truthy_bool (b : option bool) : bool :=
  match b with Some true => true | _ => false end.

(** [!!x] for [x : T | undefined] where every [T] is an object. *)
Definition truthy_object {A : Type} (x : option A) : bool :=
  match x with Some _ => true | None => false end.

(** [!!x] for [x : string | undefined]. *)
Definition truthy_opt_string (x : option string) : bool :=
  match x with Some s => truthy_string s | None => false end.

(** [a >= b] and [a > b] on strings: lexicographic on code units. *)
Definition string_ge (a b : string) : bool := String.leb b a.
Definition string_gt (a b : string) : bool := String.ltb b a.

End JS.

(** ** The [FOCUS_ON_COLUMN] event *)

Module Emitter.

(** Payload [{ columnId, highlight?, animated?, scrollTo? }]. *)
Record FocusOnColumnPayload : Type := mkFocusOnColumn {
  columnId : string;
  highlight : option bool;
  animated : option bool;
  scrollTo : option bool
}.

End Emitter.

(** ** Column.tsx *)

Module Column.
Import Emitter.

(** What a mounted [Column] keeps between events.  [columnBorderRef] is
    [columnBorderRef.current]: [None] when null, otherwise the border
    view, of which only the [opacity] native prop matters here (the
    style it is rendered with says [opacity: 0]).  [timers] holds the due
    time of every pending [setTimeout] callback; all of them are the same
    closure.  [focusCalls] counts the calls to [tryFocus]. *)
Record Instance : Type := mkInstance {
  props_columnId : string;
  columnBorderRef : option Z;
  columnRef : bool;
  timers : list Z;
  focusCalls : nat
}.

(** [columnBorderRef.current.setNativeProps({ style: { opacity } })] *)
Definition setOpacity (opacity : Z) (c : Instance) : Instance :=
  mkInstance (props_columnId c) (Some opacity) (columnRef c)
             (timers c) (focusCalls c).

(** [setTimeout(callback, delay)] issued at time [now]. *)
Definition setTimeout (now delay : Z) (c : Instance) : Instance :=
  mkInstance (props_columnId c) (columnBorderRef c) (columnRef c)
             (timers c ++ [now + delay]) (focusCalls c).

(** [tryFocus(columnRef.current)] *)
Definition tryFocus (c : Instance) : Instance :=
  mkInstance (props_columnId c) (columnBorderRef c) (columnRef c)
             (timers c) (S (focusCalls c)).

(** [payload.columnId && payload.columnId === columnId] *)
Definition forMe (payload : FocusOnColumnPayload) (c : Instance) : bool :=
  JS.truthy_string (columnId payload)
  && String.eqb (columnId payload) (props_columnId c).

(** The listener given to [useEmitter('FOCUS_ON_COLUMN', ...)]. *)
Definition onFocusOnColumn (os : string) (now : Z)
           (payload : FocusOnColumnPayload) (c : Instance) : Instance :=
  match columnBorderRef c with
  | None => c
  | Some _ =>
    if negb (forMe payload c)
    then setOpacity 0 c
    else
      let c1 :=
        if JS.truthy_bool (highlight payload)
        then setTimeout now 1000 (setOpacity 1 c)
        else c in
      if String.eqb os "web" && columnRef c1 then tryFocus c1 else c1
  end.

(** The closure handed to [setTimeout]. *)
Definition timerCallback (c : Instance) : Instance :=
  match columnBorderRef c with
  | None => c
  | Some _ => setOpacity 0 c
  end.

(** The event loop reaching time [t] with no other input: every pending
    callback whose due time has come runs once and leaves the queue. *)
Definition advance (t : Z) (c : Instance) : Instance :=
  let due := filter (fun d => d <=? t) (timers c) in
  let c' := fold_left (fun acc _ => timerCallback acc) due c in
  mkInstance (props_columnId c') (columnBorderRef c') (columnRef c')
             (filter (fun d => t <? d) (timers c)) (focusCalls c').

(** [emitter.emit('FOCUS_ON_COLUMN', payload)]: every mounted listener
    receives the payload, synchronously. *)
Definition emit (os : string) (now : Z) (payload : FocusOnColumnPayload)
           (cs : list Instance) : list Instance :=
  map (onFocusOnColumn os now payload) cs.

(** [thick={sizename > '1-small'}] of both side separators. *)
Definition thick (sizename : string) : bool :=
  JS.string_gt sizename "1-small".

(** The border is visible. *)
Definition highlighted (c : Instance) : bool :=
  match columnBorderRef c with
  | Some o => negb (o =? 0)
  | None => false
  end.

(** Unmounting: React clears both refs.  The component registers no
    cleanup for its timers, so the queue stays as it is. *)
Definition unmount (c : Instance) : Instance :=
  mkInstance (props_columnId c) None false (timers c) (focusCalls c).

End Column.

(** ** Sidebar.tsx *)

Module Sidebar.
Import Emitter.

(** [ModalPayload]: the sidebar only ever reads [name] and only ever builds
    payloads that carry nothing but a name. *)
Record ModalPayload : Type := mkModal { name : string }.

(** Argument of [flatListRef.current.scrollToItem]. *)
Record ScrollToItemParams : Type := mkScrollToItem {
  scroll_animated : bool;
  scroll_item : string;
  scroll_viewPosition : Q
}.

(** Calls the sidebar makes on its collaborators. *)
Inductive Effect : Type :=
| CloseAllModals
| ReplaceModal (payload : ModalPayload)
| EmitFocusOnColumn (payload : FocusOnColumnPayload)
| ScrollToItem (params : ScrollToItemParams).

(** Everything one render of [Sidebar] reads from its props, hooks and
    selectors. *)
Record Env : Type := mkEnv {
  horizontal : bool;
  appViewMode : string;
  sizename : string;
  focusedColumnId : option string;
  focusedColumnIndex : Z;
  columnIds : list string;
  currentOpenedModal : option ModalPayload;
  modalStack : option (list ModalPayload)
}.

(** The two refs: whether [flatListRef.current] is set, and
    [sidebarLastClickedAtRef.current] (created by [useRef(0)]). *)
Record Refs : Type := mkRefs {
  flatListRef : bool;
  sidebarLastClickedAtRef : Z
}.

Definition initialRefs : Refs := mkRefs false 0.

(** *** Derived flags *)

Definition small (sizename : string) : bool :=
  String.eqb sizename "1-small".

Definition large (sizename : string) : bool :=
  JS.string_ge sizename "3-large".

Definition showLabel (horizontal : bool) : bool := horizontal.

Definition showFixedSettingsButton (horizontal : bool)
           (columnIds : list string) : bool :=
  negb horizontal || (4 <=? List.length columnIds)%nat.

Definition highlightFocusedColumn (appViewMode sizename : string)
           (currentOpenedModal : option ModalPayload) : bool :=
  (String.eqb appViewMode "single-column" || small sizename)
  && negb (JS.truthy_object currentOpenedModal).

Definition isModalOpen (modalStack : option (list ModalPayload))
           (modalName : string) : bool :=
  match modalStack with
  | Some stack => existsb (fun m => String.eqb (name m) modalName) stack
  | None => false
  end.

(** *** The layout effect and the click timestamp *)

(** Dependency array [[focusedColumnId, focusedColumnIndex,
    flatListRef.current]]. *)
Record Deps : Type := mkDeps {
  dep_focusedColumnId : option string;
  dep_focusedColumnIndex : Z;
  dep_flatListRef : bool
}.

Definition deps (env : Env) (refs : Refs) : Deps :=
  mkDeps (focusedColumnId env) (focusedColumnIndex env) (flatListRef refs).

Definition opt_string_eqb (a b : option string) : bool :=
  match a, b with
  | Some x, Some y => String.eqb x y
  | None, None => true
  | _, _ => false
  end.

Definition deps_eqb (a b : Deps) : bool :=
  opt_string_eqb (dep_focusedColumnId a) (dep_focusedColumnId b)
  && (dep_focusedColumnIndex a =? dep_focusedColumnIndex b)
  && Bool.eqb (dep_flatListRef a) (dep_flatListRef b).

(** Body of the [useLayoutEffect] callback, run at time [now]. *)
Definition scrollToFocus (env : Env) (refs : Refs) (now : Z) : list Effect :=
  if negb (flatListRef refs && JS.truthy_opt_string (focusedColumnId env))
  then []
  else if JS.truthy_number (sidebarLastClickedAtRef refs)
          && (now - sidebarLastClickedAtRef refs <? 1000)
  then []
  else match focusedColumnId env with
       | Some item => [ScrollToItem (mkScrollToItem true item (1 # 2))]
       | None => []
       end.

(** [useLayoutEffect(body, deps)]: the body runs after the first commit and
    after every commit whose dependency array differs from the previous
    one.  [prev] is the array of the previous commit, if any. *)
Definition useLayoutEffect (prev : option Deps) (env : Env) (refs : Refs)
           (now : Z) : list Effect :=
  match prev with
  | None => scrollToFocus env refs now
  | Some d =>
    if deps_eqb d (deps env refs) then [] else scrollToFocus env refs now
  end.

(** [onSidebarItemPress]: [sidebarLastClickedAtRef.current = Date.now()].
    The column id it is called with is not used. *)
Definition onSidebarItemPress (_columnId : string) (now : Z)
           (refs : Refs) : Refs :=
  mkRefs (flatListRef refs) now.

(** *** Settings buttons *)

(** [currentOpenedModal && currentOpenedModal.name === modalName] *)
Definition currentModalIs (currentOpenedModal : option ModalPayload)
           (modalName : string) : bool :=
  match currentOpenedModal with
  | Some m => String.eqb (name m) modalName
  | None => false
  end.

(** [onPress] of the settings item in [ListFooterComponent]. *)
Definition footerSettings_onPress (env : Env) : list Effect :=
  if small (sizename env) && currentModalIs (currentOpenedModal env) "SETTINGS"
  then (if (List.length (columnIds env) =? 0)%nat
        then [CloseAllModals]
        else [])
  else [ReplaceModal (mkModal "SETTINGS")].

(** [onPress] of the fixed settings item below the list. *)
Definition fixedSettings_onPress (env : Env) : list Effect :=
  if small (sizename env) && currentModalIs (currentOpenedModal env) "SETTINGS"
  then (if (List.length (columnIds env) =? 0)%nat
        then [CloseAllModals]
        else [])
  else [ReplaceModal (mkModal "SETTINGS")].

(** *** Items of the bar *)

(** The props of a [ColumnHeaderItem] that depend on the sidebar's inputs
    (sizes and theme colours are left out). *)
Record HeaderItem : Type := mkHeaderItem {
  item_analyticsLabel : string;
  item_iconName : string;
  item_label : string;
  item_forceHoverState : bool;
  item_showLabel : bool
}.

(** [ListHeaderComponent]: the inline "add column" item, or [null]. *)
Definition ListHeaderComponent (env : Env) : option HeaderItem :=
  if negb (JS.truthy_number (Z.of_nat (List.length (columnIds env))))
     && negb (large (sizename env))
  then Some (mkHeaderItem "sidebar_add" "plus" "add column"
                          (isModalOpen (modalStack env) "ADD_COLUMN")
                          (showLabel (horizontal env)))
  else None.

(** [onPress] of the inline "add column" item. *)
Definition addColumn_onPress : list Effect :=
  [ReplaceModal (mkModal "ADD_COLUMN")].

(** [ListFooterComponent]: the settings item inside the list, or [null]. *)
Definition ListFooterComponent (env : Env) : option HeaderItem :=
  if showFixedSettingsButton (horizontal env) (columnIds env)
  then None
  else Some (mkHeaderItem "sidebar_settings" "gear" "preferences"
                          (isModalOpen (modalStack env) "SETTINGS")
                          (showLabel (horizontal env))).

(** The fixed settings item, [showFixedSettingsButton && <.../>]. *)
Definition fixedSettingsButton (env : Env) : option HeaderItem :=
  if showFixedSettingsButton (horizontal env) (columnIds env)
  then Some (mkHeaderItem "sidebar_settings" "gear" "preferences"
                          (isModalOpen (modalStack env) "SETTINGS")
                          (showLabel (horizontal env)))
  else None.

(** *** SidebarColumnItem *)

(** How a piece of JavaScript ends: with a value, or with an exception. *)
Inductive Completion (A : Type) : Type :=
| Normal (value : A)
| Throw (error : string).

Arguments Normal {A} value.
Arguments Throw {A} error.

Definition bind {A B : Type} (c : Completion A) (k : A -> Completion B)
  : Completion B :=
  match c with
  | Normal a => k a
  | Throw e => Throw e
  end.

Notation "x <- c ;; k" := (bind c (fun x => k))
  (at level 61, c at next level, right associativity).

(** Reading a property of [x]: a [TypeError] when [x] is [undefined]. *)
Definition deref {A : Type} (x : option A) : Completion A :=
  match x with
  | Some a => Normal a
  | None => Throw "TypeError"
  end.

(** What the item reads of a column and of its header details. *)
Record ColumnData : Type := mkColumn { column_id : string }.

Record HeaderDetails : Type := mkHeaderDetails {
  title : option string;
  subtitle : option string;
  icon : string
}.

(** Result of the [useColumn(columnId)] hook. *)
Record UseColumnResult : Type := mkUseColumn {
  column : option ColumnData;
  columnIndex : Z;
  headerDetails : option HeaderDetails
}.

(** Props of [SidebarColumnItem] ([closeAllModals] is the store action and
    [itemContainerStyle] is styling). *)
Record ItemProps : Type := mkItemProps {
  p_columnId : string;
  p_currentOpenedModal : option ModalPayload;
  p_enableBackgroundHover : bool;
  p_highlight : bool;
  p_horizontal : bool;
  p_onPress : option (string -> Z -> Refs -> Refs);
  p_showLabel : bool;
  p_small : option bool
}.

(** The [ColumnHeaderItem] rendered for a column. *)
Record ColumnItem : Type := mkColumnItem {
  ci_key : string;
  ci_analyticsLabel : string;
  ci_forceHoverState : bool;
  ci_enableBackgroundHover : bool;
  ci_iconName : string;
  ci_label : string;
  ci_showLabel : bool;
  ci_tooltip : string
}.

(** A value inside a template literal. *)
Definition template (x : option string) : string :=
  match x with Some s => s | None => "undefined" end.

(** [x || ''] *)
Definition or_empty (x : option string) : string :=
  match x with
  | Some s => if JS.truthy_string s then s else ""
  | None => ""
  end.

Section Item.

(** The store lookup behind [useColumn], and the two string built-ins. *)
Variable useColumn : string -> UseColumnResult.
Variable toLowerCase : string -> string.
Variable trim : string -> string.

(** The function component: [null] when the lookup is incomplete. *)
Definition SidebarColumnItem (props : ItemProps)
  : Completion (option ColumnItem) :=
  let r := useColumn (p_columnId props) in
  if negb (JS.truthy_object (column r)
           && (0 <=? columnIndex r)
           && JS.truthy_object (headerDetails r))
  then Normal None
  else
    details <- deref (headerDetails r) ;;
    col <- deref (column r) ;;
    Normal (Some (mkColumnItem
      ("sidebar-column-" ++ column_id col)
      "sidebar_column"
      (p_highlight props)
      (p_enableBackgroundHover props || p_highlight props)
      (icon details)
      (toLowerCase (or_empty (title details)))
      (p_showLabel props)
      (trim (toLowerCase (template (title details) ++ " ("
                          ++ template (subtitle details) ++ ")"))))).

(** [onPress] of a rendered item; [col] is the resolved [column]. *)
Definition SidebarColumnItem_onPress (props : ItemProps) (col : ColumnData)
           (now : Z) (refs : Refs) : Refs * list Effect :=
  let refs' :=
    match p_onPress props with
    | Some onPress => onPress (column_id col) now refs
    | None => refs
    end in
  (refs',
   ((if JS.truthy_object (p_currentOpenedModal props)
     then [CloseAllModals] else [])
    ++ [EmitFocusOnColumn
          (mkFocusOnColumn
             (column_id col)
             (Some (negb (JS.truthy_bool (p_small props))))
             (Some (negb (JS.truthy_bool (p_small props))
                    || negb (JS.truthy_object (p_currentOpenedModal props))))
             (Some true))])%list).

(** The props [renderItem] passes for [columnId]. *)
Definition itemProps (env : Env) (columnId : string) : ItemProps :=
  mkItemProps
    columnId
    (currentOpenedModal env)
    true
    (highlightFocusedColumn (appViewMode env) (sizename env)
                            (currentOpenedModal env)
     && opt_string_eqb (Some columnId) (focusedColumnId env))
    (horizontal env)
    (Some onSidebarItemPress)
    (showLabel (horizontal env))
    (Some (small (sizename env))).

Definition renderItem (env : Env) (columnId : string)
  : Completion (option ColumnItem) :=
  SidebarColumnItem (itemProps env columnId).

(** The list body: one slot per column id, in order. *)
Definition renderItems (env : Env) : list (Completion (option ColumnItem)) :=
  map (renderItem env) (columnIds env).

End Item.

(** *** The rest of the bar *)


(** [keyExtractor] of the list. *)
Definition keyExtractor (columnId : string) : string :=
  "sidebar-column-item-" ++ columnId.

(** The keys the list gives its rows. *)
Definition rowKeys (env : Env) : list string :=
  map keyExtractor (columnIds env).

(** The "add column" item below the list:
    [!small && (!!large && !shouldRenderFAB({ sizename }) && <.../>)].
    [shouldRenderFAB] belongs to the floating-button renderer. *)
Definition fixedAddColumnButton (shouldRenderFAB : string -> bool)
           (env : Env) : option HeaderItem :=
  if negb (small (sizename env))
     && (large (sizename env) && negb (shouldRenderFAB (sizename env)))
  then Some (mkHeaderItem "sidebar_add" "plus" "add column"
                          (isModalOpen (modalStack env) "ADD_COLUMN")
                          (showLabel (horizontal env)))
  else None.

End Sidebar.

(** ** Size classes *)

Module Layout.

(** The labels [sizename] ranges over, as DevHub's layout context
    ([useAppLayout], imported by both components but declared elsewhere)
    names its five breakpoints.  The two components themselves only spell
    out ['1-small'] and ['3-large'] and order labels with [>] and [>=], so
    that the numeric prefix decides.  Only statements that speak of "the
    largest size class" need the list; [header_iff_not_largest] below takes
    it as an argument. *)
Definition sizenames : list string :=
  ["1-small"; "2-medium"; "3-large"; "4-larger"; "5-largest"].

(** [s] is the largest of [classes] in JavaScript's string order. *)
Definition largestSizeClass (classes : list string) (s : string) : Prop :=
  In s classes /\ forall c, In c classes -> JS.string_ge s c = true.

(** The empty-state rule in the words of the specification: the inline
    "add column" header is there exactly when there are no columns and the
    size class is not the largest one. *)
Definition header_iff_not_largest (classes : list string) : Prop :=
  forall env : Sidebar.Env,
    In (Sidebar.sizename env) classes ->
    (Sidebar.ListHeaderComponent env <> None <->
     Sidebar.columnIds env = []
     /\ ~ largestSizeClass classes (Sidebar.sizename env)).

End Layout.

(** * Properties *)

(** ** JavaScript conventions *)

Lemma truthy_string_true (s : string) : JS.truthy_string s = true <-> s <> "".
Proof.
  unfold JS.truthy_string. rewrite negb_true_iff. apply String.eqb_neq.
Qed.

Lemma truthy_string_false (s : string) : JS.truthy_string s = false <-> s = "".
Proof.
  unfold JS.truthy_string. rewrite negb_false_iff. apply String.eqb_eq.
Qed.

Lemma truthy_number_true (n : Z) : JS.truthy_number n = true <-> n <> 0.
Proof.
  unfold JS.truthy_number. rewrite negb_true_iff. apply Z.eqb_neq.
Qed.

Lemma truthy_bool_false (b : option bool) :
  JS.truthy_bool b = false <-> b = None \/ b = Some false.
Proof.
  destruct b as [[|]|]; simpl; split; intros H; auto;
    try discriminate; destruct H; discriminate.
Qed.

(** ** Column: the highlight border *)

Section ColumnBorder.
Import Emitter Column.

Variable os : string.
Variable now : Z.

Lemma forMe_true payload c :
  forMe payload c = true <->
  columnId payload <> "" /\ columnId payload = props_columnId c.
Proof.
  unfold forMe. rewrite andb_true_iff, truthy_string_true, String.eqb_eq.
  tauto.
Qed.

Lemma forMe_false payload c :
  forMe payload c = false <->
  columnId payload = "" \/ columnId payload <> props_columnId c.
Proof.
  unfold forMe. rewrite andb_false_iff, truthy_string_false, String.eqb_neq.
  tauto.
Qed.

(** The listener never touches the [columnId] prop. *)
Lemma onFocusOnColumn_columnId payload c :
  props_columnId (onFocusOnColumn os now payload c) = props_columnId c.
Proof.
  unfold onFocusOnColumn.
  destruct (columnBorderRef c); [|reflexivity].
  destruct (negb _); [reflexivity|].
  destruct (JS.truthy_bool _); destruct (_ && _); reflexivity.
Qed.

(** The border after the listener ran, by cases. *)
Lemma onFocusOnColumn_border payload c :
  columnBorderRef (onFocusOnColumn os now payload c) =
  match columnBorderRef c with
  | None => None
  | Some o =>
    if forMe payload c
    then (if JS.truthy_bool (highlight payload) then Some 1 else Some o)
    else Some 0
  end.
Proof.
  unfold onFocusOnColumn.
  destruct (columnBorderRef c) as [o|] eqn:Hb; [|assumption].
  destruct (forMe payload c); simpl; [|reflexivity].
  destruct (JS.truthy_bool _); destruct (_ && _); simpl; auto.
Qed.

(** The timer queue after the listener ran, by cases. *)
Lemma onFocusOnColumn_timers payload c :
  timers (onFocusOnColumn os now payload c) =
  match columnBorderRef c with
  | None => timers c
  | Some _ =>
    if forMe payload c && JS.truthy_bool (highlight payload)
    then (timers c ++ [now + 1000])%list
    else timers c
  end.
Proof.
  unfold onFocusOnColumn.
  destruct (columnBorderRef c) as [o|] eqn:Hb; [|reflexivity].
  destruct (forMe payload c); simpl; [|reflexivity].
  destruct (JS.truthy_bool _); destruct (_ && _); simpl; auto.
Qed.

End ColumnBorder.

Section ColumnTimers.
Import Column.

Lemma timerCallback_border c :
  columnBorderRef (timerCallback c) =
  match columnBorderRef c with None => None | Some _ => Some 0 end.
Proof.
  unfold timerCallback. destruct (columnBorderRef c) eqn:H; simpl; auto.
Qed.

(** Running the callback for each due timer: one run is enough to reset a
    mounted border, further runs change nothing. *)
Lemma run_callbacks_border (due : list Z) : forall c,
  columnBorderRef (fold_left (fun acc _ => timerCallback acc) due c) =
  match due with
  | [] => columnBorderRef c
  | _ :: _ => match columnBorderRef c with None => None | Some _ => Some 0 end
  end.
Proof.
  induction due as [|d due IH]; intros c; simpl; [reflexivity|].
  rewrite IH, timerCallback_border.
  destruct due; destruct (columnBorderRef c); reflexivity.
Qed.

Lemma advance_border t c :
  columnBorderRef (advance t c) =
  match filter (fun d => d <=? t) (timers c) with
  | [] => columnBorderRef c
  | _ :: _ => match columnBorderRef c with None => None | Some _ => Some 0 end
  end.
Proof.
  unfold advance. simpl. apply run_callbacks_border.
Qed.

Lemma advance_timers t c d :
  In d (timers (advance t c)) <-> In d (timers c) /\ t < d.
Proof.
  unfold advance. simpl. rewrite filter_In, Z.ltb_lt. tauto.
Qed.

Lemma no_due_timer t (ts : list Z) :
  (forall d, In d ts -> t < d) -> filter (fun d => d <=? t) ts = [].
Proof.
  induction ts as [|x ts IH]; intros H; simpl; [reflexivity|].
  assert (Hx : t < x) by (apply H; left; reflexivity).
  apply Z.leb_gt in Hx. rewrite Hx. apply IH.
  intros d Hd. apply H. right. exact Hd.
Qed.

Lemma some_due_timer t (ts : list Z) d :
  In d ts -> d <= t -> filter (fun d => d <=? t) ts <> [].
Proof.
  intros Hin Hle Hnil.
  assert (Hf : In d (filter (fun d => d <=? t) ts)).
  { apply filter_In. split; [exact Hin|]. apply Z.leb_le. exact Hle. }
  rewrite Hnil in Hf. exact Hf.
Qed.

End ColumnTimers.

Section ColumnClaims.
Import Emitter Column.

(** After a broadcast, a column that shows its border is one the event
    was addressed to. *)
Lemma emit_highlights_only_target os now payload cs d :
  In d (emit os now payload cs) ->
  highlighted d = true ->
  props_columnId d = columnId payload.
Proof.
  unfold emit. intros Hin Hhl.
  apply in_map_iff in Hin. destruct Hin as [c [<- _]].
  rewrite onFocusOnColumn_columnId.
  unfold highlighted in Hhl. rewrite onFocusOnColumn_border in Hhl.
  destruct (columnBorderRef c) as [o|]; [|discriminate].
  destruct (forMe payload c) eqn:Hme.
  - apply forMe_true in Hme. symmetry. apply Hme.
  - discriminate.
Qed.

(** C3.  A [FOCUS_ON_COLUMN] event whose [columnId] differs from the
    [columnId] of a mounted column sets that column's border opacity to 0,
    whatever it was and whatever the event's [highlight] flag; hence after a
    broadcast to any set of columns, every column that shows its border
    carries the [columnId] of the event. *)
Theorem nonmatching_focus_event_resets_border
        os now payload (c : Instance) (o : Z) :
  columnBorderRef c = Some o ->
  columnId payload <> props_columnId c ->
  columnBorderRef (onFocusOnColumn os now payload c) = Some 0
  /\ highlighted (onFocusOnColumn os now payload c) = false
  /\ timers (onFocusOnColumn os now payload c) = timers c
  /\ (forall cs d, In d (emit os now payload cs) ->
                   highlighted d = true ->
                   props_columnId d = columnId payload).
Proof.
  intros Hb Hne.
  assert (Hme : forMe payload c = false) by (apply forMe_false; right; exact Hne).
  assert (H0 : columnBorderRef (onFocusOnColumn os now payload c) = Some 0).
  { rewrite onFocusOnColumn_border, Hb, Hme. reflexivity. }
  repeat split.
  - exact H0.
  - unfold highlighted. rewrite H0. reflexivity.
  - rewrite onFocusOnColumn_timers, Hb, Hme. reflexivity.
  - intros cs d. apply emit_highlights_only_target.
Qed.

Lemma nonmatching_focus_event_resets_border_witness :
  columnBorderRef
    (onFocusOnColumn "web" 5000
       (mkFocusOnColumn "column-b" (Some true) (Some true) (Some true))
       (mkInstance "column-a" (Some 1) true [5200] 0)) = Some 0.
Proof.
  apply (nonmatching_focus_event_resets_border
           "web" 5000
           (mkFocusOnColumn "column-b" (Some true) (Some true) (Some true))
           (mkInstance "column-a" (Some 1) true [5200] 0) 1).
  - reflexivity.
  - simpl. discriminate.
Defined.

(** C4.  A [FOCUS_ON_COLUMN] event received at time [now] by a mounted
    column, carrying that column's (non-empty) [columnId] and
    [highlight: true], sets the border opacity to 1 and queues a timer due
    at [now + 1000].  With no further event, once the clock has reached
    [now + 1000] the border opacity is 0 again; and if no older timer is
    due earlier, it is still 1 at every time before [now + 1000]. *)
Theorem matching_highlight_event_flashes_border
        os now payload (c : Instance) (o : Z) :
  columnBorderRef c = Some o ->
  columnId payload <> "" ->
  columnId payload = props_columnId c ->
  highlight payload = Some true ->
  let c1 := onFocusOnColumn os now payload c in
  columnBorderRef c1 = Some 1
  /\ timers c1 = (timers c ++ [now + 1000])%list
  /\ (forall t, now + 1000 <= t -> columnBorderRef (advance t c1) = Some 0)
  /\ (forall t, t < now + 1000 ->
                (forall d, In d (timers c) -> t < d) ->
                columnBorderRef (advance t c1) = Some 1).
Proof.
  intros Hb Hne Heq Hhl c1.
  assert (Hme : forMe payload c = true) by (apply forMe_true; split; assumption).
  assert (H1 : columnBorderRef c1 = Some 1).
  { unfold c1. rewrite onFocusOnColumn_border, Hb, Hme, Hhl. reflexivity. }
  assert (Ht : timers c1 = (timers c ++ [now + 1000])%list).
  { unfold c1. rewrite onFocusOnColumn_timers, Hb, Hme, Hhl. reflexivity. }
  repeat split.
  - exact H1.
  - exact Ht.
  - intros t Hle. rewrite advance_border, H1.
    destruct (filter (fun d => d <=? t) (timers c1)) eqn:Hf; [|reflexivity].
    exfalso. revert Hf. apply some_due_timer with (d := now + 1000).
    + rewrite Ht. apply in_or_app. right. left. reflexivity.
    + exact Hle.
  - intros t Hlt Hold. rewrite advance_border, H1.
    rewrite no_due_timer; [reflexivity|].
    intros d Hd. rewrite Ht in Hd. apply in_app_or in Hd.
    destruct Hd as [Hd|[<-|[]]]; [apply Hold; exact Hd | exact Hlt].
Qed.

Lemma matching_highlight_event_flashes_border_witness :
  let c1 := onFocusOnColumn "web" 5000
              (mkFocusOnColumn "column-a" (Some true) (Some true) (Some true))
              (mkInstance "column-a" (Some 0) true [] 0) in
  columnBorderRef c1 = Some 1
  /\ columnBorderRef (advance 5999 c1) = Some 1
  /\ columnBorderRef (advance 6000 c1) = Some 0.
Proof.
  intros c1.
  destruct (matching_highlight_event_flashes_border
              "web" 5000
              (mkFocusOnColumn "column-a" (Some true) (Some true) (Some true))
              (mkInstance "column-a" (Some 0) true [] 0) 0)
    as [H1 [_ [H0 Hstay]]].
  - reflexivity.
  - simpl. discriminate.
  - reflexivity.
  - reflexivity.
  - split; [exact H1|]. split.
    + apply Hstay; [lia|]. simpl. intros d [].
    + apply H0. lia.
Defined.

(** C10.  A [FOCUS_ON_COLUMN] event carrying a column's own, non-empty
    [columnId] with [highlight] absent or false leaves that column's border
    opacity and its timers as they were.  Conversely, when the listener
    turns a visible border off, the event's [columnId] was empty or was not
    the column's. *)
Theorem matching_event_without_highlight_keeps_border
        os now payload (c : Instance) :
  columnId payload <> "" ->
  columnId payload = props_columnId c ->
  highlight payload = None \/ highlight payload = Some false ->
  columnBorderRef (onFocusOnColumn os now payload c) = columnBorderRef c
  /\ timers (onFocusOnColumn os now payload c) = timers c
  /\ (forall payload' o,
        columnBorderRef c = Some o -> o <> 0 ->
        columnBorderRef (onFocusOnColumn os now payload' c) = Some 0 ->
        columnId payload' = "" \/ columnId payload' <> props_columnId c).
Proof.
  intros Hne Heq Hhl.
  assert (Hme : forMe payload c = true) by (apply forMe_true; split; assumption).
  apply truthy_bool_false in Hhl.
  repeat split.
  - rewrite onFocusOnColumn_border, Hme, Hhl.
    destruct (columnBorderRef c); reflexivity.
  - rewrite onFocusOnColumn_timers, Hme, Hhl.
    destruct (columnBorderRef c); reflexivity.
  - intros payload' o Hb Ho H0. apply forMe_false.
    rewrite onFocusOnColumn_border, Hb in H0.
    destruct (forMe payload' c); [|reflexivity].
    destruct (JS.truthy_bool (highlight payload')); inversion H0.
    contradiction.
Qed.

Lemma matching_event_without_highlight_keeps_border_witness :
  columnBorderRef
    (onFocusOnColumn "web" 5000
       (mkFocusOnColumn "column-a" (Some false) (Some true) (Some true))
       (mkInstance "column-a" (Some 1) true [5200] 0)) = Some 1.
Proof.
  apply (matching_event_without_highlight_keeps_border
           "web" 5000
           (mkFocusOnColumn "column-a" (Some false) (Some true) (Some true))
           (mkInstance "column-a" (Some 1) true [5200] 0)).
  - simpl. discriminate.
  - reflexivity.
  - right. reflexivity.
Defined.

End ColumnClaims.

(** ** Sidebar: derived flags *)

Section SidebarFlags.
Import Sidebar.

Lemma small_true sizename : small sizename = true <-> sizename = "1-small".
Proof. unfold small. apply String.eqb_eq. Qed.

Lemma currentModalIs_true currentOpenedModal modalName :
  currentModalIs currentOpenedModal modalName = true <->
  exists m, currentOpenedModal = Some m /\ name m = modalName.
Proof.
  unfold currentModalIs. destruct currentOpenedModal as [m|].
  - rewrite String.eqb_eq. split.
    + intros H. exists m. split; [reflexivity | exact H].
    + intros [m' [Hm Hn]]. inversion Hm. subst. reflexivity.
  - split; [discriminate|]. intros [m [Hm _]]. discriminate.
Qed.

Lemma length_zero_iff_nil {A : Type} (l : list A) :
  (List.length l =? 0)%nat = true <-> l = [].
Proof.
  destruct l; simpl; split; intros H; try reflexivity; discriminate.
Qed.

(** C5.  [showFixedSettingsButton] holds exactly when the sidebar is not
    horizontal or there are at least four column ids; a horizontal sidebar
    with three columns has it false, with four columns true. *)
Theorem showFixedSettingsButton_iff (horizontal : bool)
        (columnIds : list string) :
  (showFixedSettingsButton horizontal columnIds = true <->
   horizontal = false \/ (4 <= List.length columnIds)%nat)
  /\ (forall a b c : string,
         showFixedSettingsButton true [a; b; c] = false)
  /\ (forall a b c d : string,
         showFixedSettingsButton true [a; b; c; d] = true).
Proof.
  split; [|split; reflexivity].
  unfold showFixedSettingsButton.
  rewrite orb_true_iff, negb_true_iff, Nat.leb_le. reflexivity.
Qed.

(** C6.  [highlightFocusedColumn] holds exactly when the view mode is
    ['single-column'] or the size class is ['1-small'], and no modal is
    currently opened. *)
Theorem highlightFocusedColumn_iff (appViewMode sizename : string)
        (currentOpenedModal : option ModalPayload) :
  highlightFocusedColumn appViewMode sizename currentOpenedModal = true <->
  (appViewMode = "single-column" \/ sizename = "1-small")
  /\ currentOpenedModal = None.
Proof.
  unfold highlightFocusedColumn.
  rewrite andb_true_iff, orb_true_iff, negb_true_iff, small_true,
    String.eqb_eq.
  destruct currentOpenedModal; simpl; intuition congruence.
Qed.

(** C1.  Pressing "settings", from the list footer or from the fixed
    button alike: [closeAllModals()] alone is called exactly when the size
    class is ['1-small'], the current modal is the settings modal and there
    is no column id; nothing is called exactly when the first two hold and
    there is some column id; [replaceModal({ name: 'SETTINGS' })] alone is
    called in every other case. *)
Theorem settings_press_policy (env : Env) :
  let settingsIsCurrent :=
    exists m, currentOpenedModal env = Some m /\ name m = "SETTINGS" in
  let smallAndSettings := sizename env = "1-small" /\ settingsIsCurrent in
  fixedSettings_onPress env = footerSettings_onPress env
  /\ (footerSettings_onPress env = [CloseAllModals] <->
      smallAndSettings /\ columnIds env = [])
  /\ (footerSettings_onPress env = [] <->
      smallAndSettings /\ columnIds env <> [])
  /\ (footerSettings_onPress env = [ReplaceModal (mkModal "SETTINGS")] <->
      ~ smallAndSettings).
Proof.
  intros settingsIsCurrent smallAndSettings.
  assert (Hguard :
    small (sizename env) && currentModalIs (currentOpenedModal env) "SETTINGS"
    = true <-> smallAndSettings).
  { rewrite andb_true_iff, small_true, currentModalIs_true. reflexivity. }
  clearbody smallAndSettings. clear settingsIsCurrent.
  split; [reflexivity|].
  unfold footerSettings_onPress.
  destruct (small (sizename env)
            && currentModalIs (currentOpenedModal env) "SETTINGS").
  - assert (Hs : smallAndSettings) by (apply Hguard; reflexivity).
    destruct (List.length (columnIds env) =? 0)%nat eqn:Hlen.
    + apply length_zero_iff_nil in Hlen.
      split; [|split]; split; intros H; try discriminate; tauto.
    + assert (Hne : columnIds env <> []).
      { intros Hnil. apply length_zero_iff_nil in Hnil. congruence. }
      split; [|split]; split; intros H; try discriminate; tauto.
  - assert (Hs : ~ smallAndSettings).
    { intros H. apply Hguard in H. discriminate. }
    split; [|split]; split; intros H; try discriminate; tauto.
Qed.

(** The settings item is rendered once: in the list footer when the fixed
    button is not shown, as the fixed button otherwise. *)
Lemma settings_item_rendered_once (env : Env) :
  (ListFooterComponent env = None /\ fixedSettingsButton env <> None)
  \/ (ListFooterComponent env <> None /\ fixedSettingsButton env = None).
Proof.
  unfold ListFooterComponent, fixedSettingsButton.
  destruct (showFixedSettingsButton (horizontal env) (columnIds env)).
  - left. split; [reflexivity | discriminate].
  - right. split; [discriminate | reflexivity].
Qed.

(** On the five size classes the separators are thick exactly off the
    smallest class. *)
Lemma thick_off_small :
  map Column.thick Layout.sizenames
  = map (fun s => negb (small s)) Layout.sizenames.
Proof. reflexivity. Qed.

End SidebarFlags.

(** ** Sidebar: the empty-state header *)

Section SidebarHeader.
Import Sidebar Layout.

Lemma large_on_sizenames :
  map large sizenames = [false; false; true; true; true].
Proof. reflexivity. Qed.

Lemma ListHeaderComponent_some_iff (env : Env) :
  ListHeaderComponent env <> None <->
  columnIds env = [] /\ large (sizename env) = false.
Proof.
  unfold ListHeaderComponent.
  destruct (columnIds env) as [|x xs]; simpl.
  - destruct (large (sizename env)); simpl; split.
    + intros H. contradiction H. reflexivity.
    + intros [_ H]. discriminate.
    + intros _. split; reflexivity.
    + intros _. discriminate.
  - split; [intros H; contradiction H; reflexivity|].
    intros [H _]. discriminate.
Qed.

(** C9 (as amended).  The inline "add column" header is rendered exactly
    when there are no column ids and [large] is false, that is, when
    [sizename >= '3-large'] does not hold; it then is the "add column"
    item.  Of the five size classes this leaves ['1-small'] and
    ['2-medium']. *)
Theorem add_column_header_iff_empty_and_not_large (env : Env) :
  (ListHeaderComponent env <> None <->
   columnIds env = [] /\ JS.string_ge (sizename env) "3-large" = false)
  /\ (forall item, ListHeaderComponent env = Some item ->
                   item_label item = "add column"
                   /\ item_analyticsLabel item = "sidebar_add")
  /\ filter (fun s => negb (large s)) sizenames = ["1-small"; "2-medium"].
Proof.
  split; [apply ListHeaderComponent_some_iff|].
  split; [|reflexivity].
  unfold ListHeaderComponent. intros item.
  destruct (_ && _); [|discriminate].
  intros H. inversion H. split; reflexivity.
Qed.

(** With ['3-large'] as the top of the ladder the wording "not the
    largest size class" would agree with the code. *)
Lemma header_iff_not_largest_three_classes :
  header_iff_not_largest ["1-small"; "2-medium"; "3-large"].
Proof.
  intros env Hin. rewrite ListHeaderComponent_some_iff.
  unfold largestSizeClass.
  destruct Hin as [<-|[<-|[<-|[]]]]; simpl.
  - split; [intros [H _]; split; [exact H|] | intros [H _]; split;
             [exact H | reflexivity]].
    intros [_ Hmax]. specialize (Hmax "3-large"). simpl in Hmax.
    assert (false = true) by (apply Hmax; auto). discriminate.
  - split; [intros [H _]; split; [exact H|] | intros [H _]; split;
             [exact H | reflexivity]].
    intros [_ Hmax]. specialize (Hmax "3-large"). simpl in Hmax.
    assert (false = true) by (apply Hmax; auto). discriminate.
  - split; [intros [_ H]; discriminate|].
    intros [_ Hnot]. exfalso. apply Hnot. split; [auto|].
    intros c [<-|[<-|[<-|[]]]]; reflexivity.
Qed.

(** The wording breaks on every ladder that has a class at or above
    ['3-large'] which is not its largest: there the header is absent
    although the class is "not the largest". *)
Lemma header_iff_not_largest_fails (classes : list string) (c : string) :
  In c classes ->
  large c = true ->
  ~ largestSizeClass classes c ->
  ~ header_iff_not_largest classes.
Proof.
  intros Hin Hlarge Hnot Hclaim.
  pose (env := mkEnv true "multi-column" c None (-1) [] None None).
  assert (Hshown : ListHeaderComponent env <> None).
  { apply (Hclaim env Hin). split; [reflexivity | exact Hnot]. }
  apply ListHeaderComponent_some_iff in Hshown.
  destruct Hshown as [_ Hsmall]. simpl in Hsmall. congruence.
Qed.

(** C9 (as worded) fails: with no columns at size class ['3-large'],
    which is not the largest of the five, the header is absent. *)
Lemma add_column_header_absent_below_largest :
  In "3-large" sizenames
  /\ ~ largestSizeClass sizenames "3-large"
  /\ ListHeaderComponent
       (mkEnv true "multi-column" "3-large" None (-1) [] None None) = None
  /\ ~ header_iff_not_largest sizenames.
Proof.
  assert (Hin : In "3-large" sizenames) by (simpl; auto).
  assert (Hnot : ~ largestSizeClass sizenames "3-large").
  { intros [_ Hmax]. specialize (Hmax "5-largest").
    assert (JS.string_ge "3-large" "5-largest" = true)
      by (apply Hmax; simpl; auto 6).
    discriminate. }
  split; [exact Hin|]. split; [exact Hnot|]. split; [reflexivity|].
  apply (header_iff_not_largest_fails sizenames "3-large");
    [exact Hin | reflexivity | exact Hnot].
Qed.

End SidebarHeader.

(** ** Sidebar: scroll-to-focus and item presses *)

Section SidebarScroll.
Import Emitter Sidebar.

Lemma opt_string_eqb_eq (a b : option string) :
  opt_string_eqb a b = true <-> a = b.
Proof.
  destruct a as [x|], b as [y|]; simpl.
  - rewrite String.eqb_eq. split; intros H; [subst | inversion H]; reflexivity.
  - split; discriminate.
  - split; discriminate.
  - split; reflexivity.
Qed.

Lemma deps_eqb_eq (a b : Deps) : deps_eqb a b = true <-> a = b.
Proof.
  unfold deps_eqb.
  rewrite !andb_true_iff, opt_string_eqb_eq, Z.eqb_eq, Bool.eqb_true_iff.
  destruct a, b; simpl. split.
  - intros [[-> ->] ->]. reflexivity.
  - intros H. inversion H. auto.
Qed.

(** The effect body, by cases on its two guards. *)
Lemma scrollToFocus_cases (env : Env) (refs : Refs) (now : Z) :
  scrollToFocus env refs now =
  match focusedColumnId env with
  | Some item =>
    if flatListRef refs && JS.truthy_string item
       && negb (JS.truthy_number (sidebarLastClickedAtRef refs)
                && (now - sidebarLastClickedAtRef refs <? 1000))
    then [ScrollToItem (mkScrollToItem true item (1 # 2))]
    else []
  | None => []
  end.
Proof.
  unfold scrollToFocus.
  destruct (focusedColumnId env) as [item|]; simpl.
  - destruct (flatListRef refs); simpl; [|reflexivity].
    destruct (JS.truthy_string item); simpl; [|reflexivity].
    destruct (_ && _); reflexivity.
  - rewrite andb_false_r. reflexivity.
Qed.

(** Without a list to scroll or without a focused column id the effect
    does nothing. *)
Lemma scrollToFocus_needs_list_and_focus (env : Env) (refs : Refs) (now : Z) :
  flatListRef refs = false
  \/ focusedColumnId env = None
  \/ focusedColumnId env = Some "" ->
  scrollToFocus env refs now = [].
Proof.
  rewrite scrollToFocus_cases.
  intros [H|[H|H]]; rewrite H; try reflexivity.
  - destruct (focusedColumnId env); reflexivity.
  - simpl. rewrite andb_false_r. reflexivity.
Qed.

Lemma onSidebarItemPress_records columnId now refs :
  sidebarLastClickedAtRef (onSidebarItemPress columnId now refs) = now
  /\ flatListRef (onSidebarItemPress columnId now refs) = flatListRef refs.
Proof. split; reflexivity. Qed.

(** Before any press the ref holds its initial 0, which the effect reads
    as "never pressed": the time stamp guard lets the scroll through at
    every time. *)
Lemma never_pressed_never_suppressed (env : Env) (now : Z) (item : string) :
  focusedColumnId env = Some item ->
  item <> "" ->
  scrollToFocus env (mkRefs true (sidebarLastClickedAtRef initialRefs)) now
  = [ScrollToItem (mkScrollToItem true item (1 # 2))].
Proof.
  intros Hfocus Hitem. rewrite scrollToFocus_cases, Hfocus. simpl.
  apply truthy_string_true in Hitem. rewrite Hitem. reflexivity.
Qed.

(** C2.  With the list mounted and a column focused, a commit in which the
    focused column id or its index differs from the previous commit runs
    the effect at time [now]: it calls
    [scrollToItem({ animated: true, item: focusedColumnId, viewPosition: 0.5 })]
    and nothing else, unless a press has stored a time stamp (the ref is
    not its initial 0) that is less than 1000 ms before [now], in which
    case it calls nothing.  In particular a press at time [pressedAt]
    suppresses the scroll of every commit before [pressedAt + 1000]. *)
Theorem scroll_to_focus_on_change
        (prev : Deps) (env : Env) (refs : Refs) (now : Z) (item : string) :
  flatListRef refs = true ->
  focusedColumnId env = Some item ->
  item <> "" ->
  dep_focusedColumnId prev <> focusedColumnId env
  \/ dep_focusedColumnIndex prev <> focusedColumnIndex env ->
  (sidebarLastClickedAtRef refs <> 0
   /\ now - sidebarLastClickedAtRef refs < 1000 ->
   useLayoutEffect (Some prev) env refs now = [])
  /\ (~ (sidebarLastClickedAtRef refs <> 0
         /\ now - sidebarLastClickedAtRef refs < 1000) ->
      useLayoutEffect (Some prev) env refs now
      = [ScrollToItem (mkScrollToItem true item (1 # 2))])
  /\ (forall columnId pressedAt,
         pressedAt <> 0 -> now - pressedAt < 1000 ->
         useLayoutEffect (Some prev) env
                         (onSidebarItemPress columnId pressedAt refs) now
         = []).
Proof.
  intros Hlist Hfocus Hitem Hchange.
  assert (Hrun : forall refs', flatListRef refs' = flatListRef refs ->
            useLayoutEffect (Some prev) env refs' now
            = scrollToFocus env refs' now).
  { intros refs' Hsame. unfold useLayoutEffect.
    destruct (deps_eqb prev (deps env refs')) eqn:Hd; [|reflexivity].
    apply deps_eqb_eq in Hd. subst prev. simpl in Hchange.
    destruct Hchange as [H|H]; contradiction H; reflexivity. }
  assert (Hbody : forall refs', flatListRef refs' = flatListRef refs ->
            scrollToFocus env refs' now =
            if JS.truthy_number (sidebarLastClickedAtRef refs')
               && (now - sidebarLastClickedAtRef refs' <? 1000)
            then []
            else [ScrollToItem (mkScrollToItem true item (1 # 2))]).
  { intros refs' Hsame. rewrite scrollToFocus_cases, Hfocus, Hsame, Hlist.
    apply truthy_string_true in Hitem. rewrite Hitem. simpl.
    destruct (_ && _); reflexivity. }
  assert (Hguard : forall last,
            JS.truthy_number last && (now - last <? 1000) = true
            <-> last <> 0 /\ now - last < 1000).
  { intros last. rewrite andb_true_iff, truthy_number_true, Z.ltb_lt.
    reflexivity. }
  split; [|split].
  - intros Hrecent. rewrite Hrun, Hbody by reflexivity.
    apply Hguard in Hrecent. rewrite Hrecent. reflexivity.
  - intros Hnot. rewrite Hrun, Hbody by reflexivity.
    destruct (_ && _) eqn:Hg; [|reflexivity].
    apply Hguard in Hg. contradiction.
  - intros columnId pressedAt Hnz Hlt.
    rewrite Hrun, Hbody by reflexivity. simpl.
    assert (Hg : JS.truthy_number pressedAt && (now - pressedAt <? 1000) = true)
      by (apply Hguard; split; assumption).
    rewrite Hg. reflexivity.
Qed.

Lemma scroll_to_focus_on_change_witness :
  useLayoutEffect
    (Some (mkDeps (Some "column-a") 0 true))
    (mkEnv true "single-column" "1-small" (Some "column-b") 1
           ["column-a"; "column-b"] None None)
    (mkRefs true 4000) 5000
  = [ScrollToItem (mkScrollToItem true "column-b" (1 # 2))]
  /\ useLayoutEffect
       (Some (mkDeps (Some "column-a") 0 true))
       (mkEnv true "single-column" "1-small" (Some "column-b") 1
              ["column-a"; "column-b"] None None)
       (onSidebarItemPress "column-b" 4001 (mkRefs true 4000)) 5000
     = [].
Proof.
  destruct (scroll_to_focus_on_change
              (mkDeps (Some "column-a") 0 true)
              (mkEnv true "single-column" "1-small" (Some "column-b") 1
                     ["column-a"; "column-b"] None None)
              (mkRefs true 4000) 5000 "column-b")
    as [_ [Hscroll Hpress]].
  - reflexivity.
  - reflexivity.
  - discriminate.
  - left. simpl. discriminate.
  - split.
    + apply Hscroll. simpl. lia.
    + apply Hpress; lia.
Defined.

(** C7.  Pressing a rendered column item at time [now] stores [now] as
    the sidebar's last-click time stamp, then calls [closeAllModals()] if
    and only if a modal is currently opened, then emits
    ['FOCUS_ON_COLUMN'] once, for the pressed column, with
    [highlight = !small], [animated = !small || !currentOpenedModal] and
    [scrollTo = true]; it does nothing else. *)
Theorem item_press_stamps_closes_emits
        (env : Env) (columnId : string) (col : ColumnData)
        (now : Z) (refs : Refs) :
  let pressed :=
    SidebarColumnItem_onPress (itemProps env columnId) col now refs in
  let isSmall := String.eqb (sizename env) "1-small" in
  let modalOpen :=
    match currentOpenedModal env with Some _ => true | None => false end in
  let payload :=
    mkFocusOnColumn (column_id col)
                    (Some (negb isSmall))
                    (Some (negb isSmall || negb modalOpen))
                    (Some true) in
  sidebarLastClickedAtRef (fst pressed) = now
  /\ flatListRef (fst pressed) = flatListRef refs
  /\ snd pressed
     = if modalOpen
       then [CloseAllModals; EmitFocusOnColumn payload]
       else [EmitFocusOnColumn payload].
Proof.
  unfold SidebarColumnItem_onPress, itemProps. simpl.
  split; [reflexivity|]. split; [reflexivity|].
  unfold small.
  destruct (currentOpenedModal env);
    destruct (String.eqb (sizename env) "1-small"); reflexivity.
Qed.

End SidebarScroll.

(** ** Sidebar: per-item rendering *)

Section SidebarItems.
Import Sidebar.

Variable useColumn : string -> UseColumnResult.
Variable toLowerCase : string -> string.
Variable trim : string -> string.

(** The guard of [SidebarColumnItem] fails exactly when some part of the
    lookup is missing. *)
Lemma unresolved_iff (r : UseColumnResult) :
  negb (JS.truthy_object (column r) && (0 <=? columnIndex r)
        && JS.truthy_object (headerDetails r)) = true
  <-> column r = None \/ columnIndex r < 0 \/ headerDetails r = None.
Proof.
  rewrite negb_true_iff, !andb_false_iff, Z.leb_gt.
  destruct (column r), (headerDetails r); simpl; split; intros H;
    intuition (try discriminate; try congruence).
Qed.

(** Rendering an item never ends with an exception: past the guard both
    property reads are on defined values. *)
Lemma SidebarColumnItem_never_throws (props : ItemProps) :
  exists rendered,
    SidebarColumnItem useColumn toLowerCase trim props = Normal rendered.
Proof.
  unfold SidebarColumnItem.
  destruct (column (useColumn (p_columnId props))) as [col|];
    destruct (headerDetails (useColumn (p_columnId props))) as [details|];
    simpl; try (rewrite ?andb_false_r; simpl; eexists; reflexivity).
  destruct (0 <=? columnIndex (useColumn (p_columnId props)));
    simpl; eexists; reflexivity.
Qed.

(** A fully resolved lookup does render an item, keyed by the column. *)
Lemma SidebarColumnItem_resolved (props : ItemProps) col details :
  column (useColumn (p_columnId props)) = Some col ->
  0 <= columnIndex (useColumn (p_columnId props)) ->
  headerDetails (useColumn (p_columnId props)) = Some details ->
  exists item,
    SidebarColumnItem useColumn toLowerCase trim props = Normal (Some item)
    /\ ci_key item = "sidebar-column-" ++ column_id col
    /\ ci_forceHoverState item = p_highlight props.
Proof.
  intros Hc Hi Hd. unfold SidebarColumnItem.
  rewrite Hc, Hd. apply Z.leb_le in Hi. rewrite Hi. simpl.
  eexists. split; [reflexivity|]. split; reflexivity.
Qed.

(** C8.  When [useColumn] does not give a column, or gives a negative
    column index, or gives no header details for a column id, the item for
    that id renders [null] and does so without throwing, and the
    corresponding slot of the list is empty; rendering an item never throws
    for any column id. *)
Theorem unresolved_column_renders_nothing (env : Env) (columnId : string) :
  column (useColumn columnId) = None
  \/ columnIndex (useColumn columnId) < 0
  \/ headerDetails (useColumn columnId) = None ->
  renderItem useColumn toLowerCase trim env columnId = Normal None
  /\ (forall i, nth_error (columnIds env) i = Some columnId ->
                nth_error (renderItems useColumn toLowerCase trim env) i
                = Some (Normal None))
  /\ (forall columnId',
         exists rendered,
           renderItem useColumn toLowerCase trim env columnId'
           = Normal rendered).
Proof.
  intros Hmiss.
  assert (Hnull :
    renderItem useColumn toLowerCase trim env columnId = Normal None).
  { unfold renderItem, SidebarColumnItem. simpl.
    apply unresolved_iff in Hmiss. rewrite Hmiss. reflexivity. }
  split; [exact Hnull|]. split.
  - intros i Hi. unfold renderItems.
    rewrite (map_nth_error _ _ _ Hi). rewrite Hnull. reflexivity.
  - intros columnId'. apply SidebarColumnItem_never_throws.
Qed.

End SidebarItems.

Lemma unresolved_column_renders_nothing_witness :
  Sidebar.renderItem
    (fun columnId =>
       if String.eqb columnId "column-a"
       then Sidebar.mkUseColumn
              (Some (Sidebar.mkColumn "column-a")) 0
              (Some (Sidebar.mkHeaderDetails (Some "Inbox") None "bell"))
       else Sidebar.mkUseColumn None (-1) None)
    (fun s => s) (fun s => s)
    (Sidebar.mkEnv true "single-column" "1-small" (Some "column-a") 0
                   ["column-a"; "column-stale"] None None)
    "column-stale"
  = Sidebar.Normal None.
Proof.
  apply (unresolved_column_renders_nothing
           (fun columnId =>
              if String.eqb columnId "column-a"
              then Sidebar.mkUseColumn
                     (Some (Sidebar.mkColumn "column-a")) 0
                     (Some (Sidebar.mkHeaderDetails (Some "Inbox") None "bell"))
              else Sidebar.mkUseColumn None (-1) None)
           (fun s => s) (fun s => s)
           (Sidebar.mkEnv true "single-column" "1-small" (Some "column-a") 0
                          ["column-a"; "column-stale"] None None)
           "column-stale").
  left. reflexivity.
Defined.

(** ** Sidebar and Column together *)

Section PressThenBroadcast.
Import Emitter.

(** Pressing the item of column [col] off the smallest size class, then
    delivering the emitted payload to the mounted columns: that column's
    border is shown, and no other column's is. *)
Lemma press_then_broadcast_highlights_target
      (env : Sidebar.Env) (columnId : string) (col : Sidebar.ColumnData)
      (os : string) (now : Z) (refs : Sidebar.Refs)
      (cs : list Column.Instance) :
  Sidebar.small (Sidebar.sizename env) = false ->
  Sidebar.column_id col <> "" ->
  exists payload,
    In (Sidebar.EmitFocusOnColumn payload)
       (snd (Sidebar.SidebarColumnItem_onPress
               (Sidebar.itemProps env columnId) col now refs))
    /\ forall c o,
         In c cs -> Column.columnBorderRef c = Some o ->
         Column.highlighted (Column.onFocusOnColumn os now payload c)
         = String.eqb (Column.props_columnId c) (Sidebar.column_id col).
Proof.
  intros Hsmall Hid.
  eexists. split.
  - unfold Sidebar.SidebarColumnItem_onPress. simpl.
    apply in_or_app. right. left. reflexivity.
  - intros c o _ Hb. unfold Column.highlighted.
    rewrite onFocusOnColumn_border, Hb. unfold Column.forMe. simpl.
    rewrite Hsmall. simpl.
    apply truthy_string_true in Hid. rewrite Hid. simpl.
    rewrite String.eqb_sym.
    destruct (String.eqb (Column.props_columnId c) (Sidebar.column_id col));
      reflexivity.
Qed.

End PressThenBroadcast.

(** * Further properties *)

(** ** Column: host focus and timers *)

Section ColumnFocusAndTimers.
Import Emitter Column.

Lemma onFocusOnColumn_focusCalls os now payload c :
  focusCalls (onFocusOnColumn os now payload c) =
  match columnBorderRef c with
  | None => focusCalls c
  | Some _ =>
    if forMe payload c && String.eqb os "web" && columnRef c
    then S (focusCalls c)
    else focusCalls c
  end.
Proof.
  unfold onFocusOnColumn.
  destruct (columnBorderRef c); [|reflexivity].
  destruct (forMe payload c); simpl; [|reflexivity].
  destruct (JS.truthy_bool (highlight payload)); simpl;
    destruct (String.eqb os "web"); simpl; try reflexivity;
    destruct (columnRef c); reflexivity.
Qed.

Lemma forMe_same_columnId payload c c' :
  props_columnId c' = props_columnId c -> forMe payload c' = forMe payload c.
Proof. unfold forMe. intros ->. reflexivity. Qed.

(** Running timer callbacks touches nothing but the border. *)
Lemma run_callbacks_frame (due : list Z) : forall c,
  let c' := fold_left (fun acc _ => timerCallback acc) due c in
  props_columnId c' = props_columnId c
  /\ columnRef c' = columnRef c
  /\ focusCalls c' = focusCalls c.
Proof.
  induction due as [|d due IH]; intros c; simpl; [auto|].
  destruct (IH (timerCallback c)) as [H1 [H2 H3]].
  rewrite H1, H2, H3. unfold timerCallback.
  destruct (columnBorderRef c); simpl; auto.
Qed.

Lemma advance_frame t c :
  props_columnId (advance t c) = props_columnId c
  /\ columnRef (advance t c) = columnRef c
  /\ focusCalls (advance t c) = focusCalls c.
Proof. unfold advance. simpl. apply run_callbacks_frame. Qed.

Lemma nothing_due t (ts : list Z) :
  filter (fun d => d <=? t) ts = [] -> forall d, In d ts -> t < d.
Proof.
  intros Hnil d Hin.
  destruct (Z.leb_spec d t) as [Hle|Hlt]; [|exact Hlt].
  exfalso. revert Hnil. apply some_due_timer with (d := d); assumption.
Qed.

(** X1.  The listener asks the host for focus ([tryFocus]) exactly once
    when the border view is mounted, the payload carries the column's own
    non-empty id, the platform is the web and the column view is mounted,
    whatever the [highlight] flag says; in every other case it does not
    ask at all. *)
Theorem tryFocus_exactly_for_own_id_on_web os now payload (c : Instance) :
  let asked := focusCalls (onFocusOnColumn os now payload c) in
  let cond :=
    columnBorderRef c <> None
    /\ columnId payload <> ""
    /\ columnId payload = props_columnId c
    /\ os = "web"
    /\ columnRef c = true in
  (cond -> asked = S (focusCalls c))
  /\ (~ cond -> asked = focusCalls c).
Proof.
  intros asked cond. unfold asked. rewrite onFocusOnColumn_focusCalls.
  assert (Hiff :
    forMe payload c && String.eqb os "web" && columnRef c = true
    <-> columnId payload <> "" /\ columnId payload = props_columnId c
        /\ os = "web" /\ columnRef c = true).
  { rewrite !andb_true_iff, forMe_true, String.eqb_eq. tauto. }
  unfold cond. clear asked cond.
  destruct (columnBorderRef c) as [o|].
  - destruct (forMe payload c && String.eqb os "web" && columnRef c).
    + split; [reflexivity|]. intros Hn. exfalso. apply Hn.
      split; [discriminate | apply Hiff; reflexivity].
    + split; [|reflexivity]. intros [_ H]. apply Hiff in H. discriminate.
  - split; [|reflexivity]. intros [H _]. contradiction H. reflexivity.
Qed.

(** X2.  Timers only ever dim.  Letting the clock run never asks for
    focus, never changes the column's id, never mounts a border that is
    not there, and a border that is visible afterwards was visible before
    with no timer due; in particular after an unmount the pending timers
    fire without effect. *)
Theorem timers_only_dim (t : Z) (c : Instance) :
  focusCalls (advance t c) = focusCalls c
  /\ props_columnId (advance t c) = props_columnId c
  /\ (columnBorderRef c = None -> columnBorderRef (advance t c) = None)
  /\ (highlighted (advance t c) = true ->
      highlighted c = true /\ forall d, In d (timers c) -> t < d)
  /\ columnBorderRef (advance t (unmount c)) = None.
Proof.
  destruct (advance_frame t c) as [Hid [_ Hfocus]].
  split; [exact Hfocus|]. split; [exact Hid|]. split; [|split].
  - intros Hnone. rewrite advance_border, Hnone.
    destruct (filter _ _); reflexivity.
  - unfold highlighted. rewrite advance_border.
    destruct (filter (fun d => d <=? t) (timers c)) eqn:Hdue.
    + intros H. split; [exact H|]. apply nothing_due. exact Hdue.
    + destruct (columnBorderRef c); discriminate.
  - rewrite advance_border. simpl. destruct (filter _ _); reflexivity.
Qed.

(** X3.  Earlier timers are not cancelled: when a column is highlighted at
    [now0] and again at [now1], less than 1000 ms later, the border is lit
    after the second event but goes dark as soon as the clock reaches
    [now0 + 1000], while the second timer is still pending. *)
Theorem second_highlight_cut_short
        os (now0 now1 t : Z) payload (c : Instance) (o : Z) :
  columnBorderRef c = Some o ->
  columnId payload <> "" ->
  columnId payload = props_columnId c ->
  highlight payload = Some true ->
  now0 <= now1 < now0 + 1000 ->
  now0 + 1000 <= t ->
  let c1 := onFocusOnColumn os now0 payload c in
  let c2 := onFocusOnColumn os now1 payload (advance now1 c1) in
  columnBorderRef c2 = Some 1
  /\ columnBorderRef (advance t c2) = Some 0
  /\ (t < now1 + 1000 -> In (now1 + 1000) (timers (advance t c2))).
Proof.
  intros Hb Hne Heq Hhl Hnow Ht c1 c2.
  assert (Hme : forMe payload c = true) by (apply forMe_true; split; assumption).
  assert (Hb1 : columnBorderRef c1 = Some 1).
  { unfold c1. rewrite onFocusOnColumn_border, Hb, Hme, Hhl. reflexivity. }
  assert (Ht1 : In (now0 + 1000) (timers c1)).
  { unfold c1. rewrite onFocusOnColumn_timers, Hb, Hme, Hhl. simpl.
    apply in_or_app. right. left. reflexivity. }
  assert (Hid1 : props_columnId (advance now1 c1) = props_columnId c).
  { destruct (advance_frame now1 c1) as [H _]. rewrite H.
    apply onFocusOnColumn_columnId. }
  assert (Hme1 : forMe payload (advance now1 c1) = true).
  { rewrite (forMe_same_columnId payload c _ Hid1). exact Hme. }
  assert (Hba : exists o', columnBorderRef (advance now1 c1) = Some o').
  { rewrite advance_border, Hb1. destruct (filter _ _); eexists; reflexivity. }
  destruct Hba as [o' Hba].
  assert (Hb2 : columnBorderRef c2 = Some 1).
  { unfold c2. rewrite onFocusOnColumn_border, Hba, Hme1, Hhl. reflexivity. }
  assert (Ht2 : timers c2 = (timers (advance now1 c1) ++ [now1 + 1000])%list).
  { unfold c2. rewrite onFocusOnColumn_timers, Hba, Hme1, Hhl. reflexivity. }
  split; [exact Hb2|]. split.
  - rewrite advance_border, Hb2.
    destruct (filter (fun d => d <=? t) (timers c2)) eqn:Hf; [|reflexivity].
    exfalso. revert Hf. apply some_due_timer with (d := now0 + 1000).
    + rewrite Ht2. apply in_or_app. left.
      apply advance_timers. split; [exact Ht1 | lia].
    + exact Ht.
  - intros Hlt. apply advance_timers. split; [|exact Hlt].
    rewrite Ht2. apply in_or_app. right. left. reflexivity.
Qed.

Lemma second_highlight_cut_short_witness :
  columnBorderRef
    (advance 6000
       (onFocusOnColumn "web" 5900
          (mkFocusOnColumn "column-a" (Some true) None None)
          (advance 5900
             (onFocusOnColumn "web" 5000
                (mkFocusOnColumn "column-a" (Some true) None None)
                (mkInstance "column-a" (Some 0) true [] 0)))))
  = Some 0.
Proof.
  apply (second_highlight_cut_short
           "web" 5000 5900 6000
           (mkFocusOnColumn "column-a" (Some true) None None)
           (mkInstance "column-a" (Some 0) true [] 0) 0).
  - reflexivity.
  - simpl. discriminate.
  - reflexivity.
  - reflexivity.
  - lia.
  - lia.
Defined.

End ColumnFocusAndTimers.

(** ** Sidebar: where the fixed items go *)

Section SidebarPlacement.
Import Sidebar.

Lemma large_not_small (sizename : string) :
  large sizename = true -> small sizename = false.
Proof.
  intros Hlarge. destruct (small sizename) eqn:Hsmall; [|reflexivity].
  apply small_true in Hsmall. subst sizename. discriminate.
Qed.

(** X4.  The settings item is rendered in exactly one place, with the same
    props either way: inside the list (as its footer) when the bar is
    horizontal with fewer than four column ids, as the fixed item below the
    list in every other case. *)
Theorem settings_item_in_exactly_one_place (env : Env) :
  let item :=
    mkHeaderItem "sidebar_settings" "gear" "preferences"
                 (isModalOpen (modalStack env) "SETTINGS") (horizontal env) in
  (horizontal env = true
   /\ (List.length (columnIds env) < 4)%nat
   /\ ListFooterComponent env = Some item
   /\ fixedSettingsButton env = None)
  \/ ((horizontal env = false \/ (4 <= List.length (columnIds env))%nat)
      /\ ListFooterComponent env = None
      /\ fixedSettingsButton env = Some item).
Proof.
  intros item. unfold item, ListFooterComponent, fixedSettingsButton,
    showFixedSettingsButton, showLabel.
  destruct (Nat.leb_spec 4 (List.length (columnIds env))) as [Hge|Hlt];
    destruct (horizontal env); simpl.
  - right. repeat split. right. exact Hge.
  - right. repeat split. left. reflexivity.
  - left. repeat split. exact Hlt.
  - right. repeat split. left. reflexivity.
Qed.

(** X5.  At most one "add column" item is rendered: the inline list header
    needs a size class below ['3-large'], the fixed one a size class from
    ['3-large'] up that the floating button does not serve (so its
    [!small] guard is implied).  On the smallest size class with columns
    present the bar offers no "add column" item at all. *)
Theorem add_column_items_exclusive
        (shouldRenderFAB : string -> bool) (env : Env) :
  (ListHeaderComponent env = None
   \/ fixedAddColumnButton shouldRenderFAB env = None)
  /\ (fixedAddColumnButton shouldRenderFAB env <> None <->
      large (sizename env) = true /\ shouldRenderFAB (sizename env) = false)
  /\ (small (sizename env) = true -> columnIds env <> [] ->
      ListHeaderComponent env = None
      /\ fixedAddColumnButton shouldRenderFAB env = None).
Proof.
  assert (Hfixed :
    fixedAddColumnButton shouldRenderFAB env <> None <->
    large (sizename env) = true /\ shouldRenderFAB (sizename env) = false).
  { unfold fixedAddColumnButton.
    destruct (large (sizename env)) eqn:Hlarge.
    - rewrite (large_not_small _ Hlarge). simpl.
      destruct (shouldRenderFAB (sizename env)); simpl; split;
        intros H; try discriminate; try (contradiction H; reflexivity);
        try (destruct H; discriminate); auto.
    - rewrite andb_false_r. split; [intros H; contradiction H; reflexivity|].
      intros [H _]. discriminate. }
  assert (Hheader : ListHeaderComponent env = None
                    \/ large (sizename env) = false).
  { unfold ListHeaderComponent. destruct (large (sizename env)).
    - left. rewrite andb_false_r. reflexivity.
    - right. reflexivity. }
  split; [|split].
  - destruct Hheader as [H|H]; [left; exact H|]. right.
    destruct (fixedAddColumnButton shouldRenderFAB env) eqn:Hf; [|reflexivity].
    assert (Hsome : Some h <> None) by discriminate.
    apply Hfixed in Hsome. destruct Hsome. congruence.
  - exact Hfixed.
  - intros Hsmall Hcols. split.
    + unfold ListHeaderComponent.
      destruct (columnIds env); [contradiction Hcols; reflexivity|].
      reflexivity.
    + unfold fixedAddColumnButton. rewrite Hsmall. reflexivity.
Qed.


End SidebarPlacement.

(** ** Sidebar: the rows of the list *)

Section SidebarRows.
Import Sidebar.

Variable useColumn : string -> UseColumnResult.
Variable toLowerCase : string -> string.
Variable trim : string -> string.

Lemma keyExtractor_injective (a b : string) :
  keyExtractor a = keyExtractor b -> a = b.
Proof. unfold keyExtractor. simpl. intros H. inversion H. reflexivity. Qed.

(** X6.  Distinct column ids get distinct row keys. *)
Theorem row_keys_distinct (env : Env) :
  NoDup (columnIds env) -> NoDup (rowKeys env).
Proof.
  unfold rowKeys. induction (columnIds env) as [|x xs IH]; intros Hnd; simpl.
  - constructor.
  - inversion Hnd as [|? ? Hnotin Hrest]. subst. constructor.
    + intros Hin. apply in_map_iff in Hin. destruct Hin as [y [Hk Hy]].
      apply keyExtractor_injective in Hk. subst y. contradiction.
    + apply IH. exact Hrest.
Qed.





End SidebarRows.

Lemma row_keys_distinct_witness :
  NoDup (Sidebar.rowKeys
           (Sidebar.mkEnv true "single-column" "1-small" (Some "column-a") 0
                          ["column-a"; "column-b"] None None)).
Proof.
  apply row_keys_distinct. simpl.
  constructor.
  - simpl. intros [H|[]]. discriminate.
  - constructor; [simpl; intros [] | constructor].
Defined.


(** ** Sidebar: more on the layout effect *)

Section SidebarEffect.
Import Emitter Sidebar.

(** X9.  Whatever the effect does is one call of [scrollToItem] on a
    mounted list, for the non-empty focused column id, animated and
    centred: it never scrolls anywhere else, never scrolls twice, and never
    calls the store or the emitter. *)
Theorem layout_effect_only_scrolls_to_focus
        (prev : option Deps) (env : Env) (refs : Refs) (now : Z) (e : Effect) :
  In e (useLayoutEffect prev env refs now) ->
  exists item,
    focusedColumnId env = Some item
    /\ item <> ""
    /\ flatListRef refs = true
    /\ e = ScrollToItem (mkScrollToItem true item (1 # 2))
    /\ useLayoutEffect prev env refs now = [e].
Proof.
  assert (Hbody : forall e',
    In e' (scrollToFocus env refs now) ->
    exists item,
      focusedColumnId env = Some item /\ item <> ""
      /\ flatListRef refs = true
      /\ e' = ScrollToItem (mkScrollToItem true item (1 # 2))
      /\ scrollToFocus env refs now = [e']).
  { intros e'. rewrite scrollToFocus_cases.
    destruct (focusedColumnId env) as [item|]; [|intros []].
    destruct (flatListRef refs); simpl; [|intros []].
    destruct (JS.truthy_string item) eqn:Hitem; simpl; [|intros []].
    destruct (negb _); [|intros []].
    intros [<-|[]]. exists item. apply truthy_string_true in Hitem. auto. }
  unfold useLayoutEffect. destruct prev as [d|]; [|apply Hbody].
  destruct (deps_eqb d (deps env refs)); [intros [] | apply Hbody].
Qed.

Lemma layout_effect_only_scrolls_to_focus_witness :
  exists item,
    Some "column-b" = Some item
    /\ item <> ""
    /\ true = true
    /\ ScrollToItem (mkScrollToItem true "column-b" (1 # 2))
       = ScrollToItem (mkScrollToItem true item (1 # 2))
    /\ useLayoutEffect
         None
         (mkEnv true "single-column" "1-small" (Some "column-b") 1
                ["column-a"; "column-b"] None None)
         (mkRefs true 0) 5000
       = [ScrollToItem (mkScrollToItem true "column-b" (1 # 2))].
Proof.
  apply (layout_effect_only_scrolls_to_focus
           None
           (mkEnv true "single-column" "1-small" (Some "column-b") 1
                  ["column-a"; "column-b"] None None)
           (mkRefs true 0) 5000
           (ScrollToItem (mkScrollToItem true "column-b" (1 # 2)))).
  simpl. left. reflexivity.
Defined.



(** X11.  The first commit always runs the effect, and as long as no item
    has been pressed (the ref still holds its initial 0) the time stamp
    never suppresses it, not even at clock values below 1000: with the
    list mounted and a column focused, the sidebar scrolls to it on
    mount. *)
Theorem scrolls_on_mount_before_any_press
        (env : Env) (refs : Refs) (now : Z) (item : string) :
  flatListRef refs = true ->
  focusedColumnId env = Some item ->
  item <> "" ->
  sidebarLastClickedAtRef refs = sidebarLastClickedAtRef initialRefs ->
  useLayoutEffect None env refs now
  = [ScrollToItem (mkScrollToItem true item (1 # 2))].
Proof.
  intros Hlist Hfocus Hitem Hstamp. simpl in Hstamp. simpl.
  rewrite scrollToFocus_cases, Hfocus, Hlist, Hstamp.
  apply truthy_string_true in Hitem. rewrite Hitem. reflexivity.
Qed.

Lemma scrolls_on_mount_before_any_press_witness :
  useLayoutEffect
    None
    (mkEnv false "multi-column" "3-large" (Some "column-a") 0
           ["column-a"] None None)
    (mkRefs true 0) 500
  = [ScrollToItem (mkScrollToItem true "column-a" (1 # 2))].
Proof.
  apply scrolls_on_mount_before_any_press.
  - reflexivity.
  - reflexivity.
  - discriminate.
  - reflexivity.
Defined.

(** X12.  What an item press does to the columns.  Deliver any payload the
    press emits to a mounted column: on the smallest size class no border
    is lit by it (a border visible afterwards was visible before and is the
    pressed column's); on every other size class the border is visible
    afterwards exactly on the column whose id is the pressed column's. *)
Theorem item_press_then_broadcast
        (env : Env) (rowId : string) (col : ColumnData)
        (pressedAt : Z) (refs : Refs) (payload : FocusOnColumnPayload)
        (os : string) (now : Z) (c : Column.Instance) (o : Z) :
  In (EmitFocusOnColumn payload)
     (snd (SidebarColumnItem_onPress (itemProps env rowId) col
                                     pressedAt refs)) ->
  Column.columnBorderRef c = Some o ->
  column_id col <> "" ->
  let c' := Column.onFocusOnColumn os now payload c in
  (small (sizename env) = true ->
   Column.highlighted c' = true ->
   Column.highlighted c = true
   /\ Column.props_columnId c = column_id col)
  /\ (small (sizename env) = false ->
      Column.highlighted c'
      = String.eqb (Column.props_columnId c) (column_id col)).
Proof.
  intros Hemit Hb Hid c'.
  assert (Hpayload :
    columnId payload = column_id col
    /\ highlight payload = Some (negb (small (sizename env)))).
  { unfold SidebarColumnItem_onPress in Hemit. simpl in Hemit.
    apply in_app_or in Hemit. destruct Hemit as [Hclose|[Hp|[]]].
    - destruct (JS.truthy_object (currentOpenedModal env));
        [destruct Hclose as [H|[]]; discriminate | destruct Hclose].
    - inversion Hp. simpl.
      destruct (small (sizename env)); split; reflexivity. }
  destruct Hpayload as [Hcid Hhl].
  assert (Hme : Column.forMe payload c
                = String.eqb (Column.props_columnId c) (column_id col)).
  { unfold Column.forMe. rewrite Hcid.
    apply truthy_string_true in Hid. rewrite Hid. simpl.
    apply String.eqb_sym. }
  unfold c', Column.highlighted.
  rewrite onFocusOnColumn_border, Hb, Hme, Hhl.
  split; intros Hsmall; rewrite Hsmall; simpl.
  - destruct (String.eqb (Column.props_columnId c) (column_id col)) eqn:Heq;
      [|discriminate].
    intros H. split; [exact H | apply String.eqb_eq; exact Heq].
  - destruct (String.eqb (Column.props_columnId c) (column_id col));
      reflexivity.
Qed.

Lemma item_press_then_broadcast_witness :
  Column.highlighted
    (Column.onFocusOnColumn
       "web" 5000
       (mkFocusOnColumn "column-a" (Some true) (Some true) (Some true))
       (Column.mkInstance "column-b" (Some 1) true [] 0))
  = false.
Proof.
  refine (proj2
    (item_press_then_broadcast
       (mkEnv false "multi-column" "3-large" (Some "column-b") 1
              ["column-a"; "column-b"] None None)
       "column-a" (mkColumn "column-a") 5000 (mkRefs true 0)
       (mkFocusOnColumn "column-a" (Some true) (Some true) (Some true))
       "web" 5000
       (Column.mkInstance "column-b" (Some 1) true [] 0) 1
       _ _ _) _).
  - simpl. left. reflexivity.
  - reflexivity.
  - simpl. discriminate.
  - reflexivity.
Defined.

End SidebarEffect.

(** ** Sidebar: the click time stamp across presses *)

Section SidebarDebounce.
Import Sidebar.

(** X14.  The suppression window is measured from the latest press only.
    After two item presses, at [t1] and then at [t2], the effect body run
    at [now] on a mounted list with a focused column does nothing when
    [now - t2 < 1000] (also when the clock was set back, [now < t2]) and
    scrolls otherwise; [t1] plays no part. *)
Theorem debounce_counts_latest_press
        (env1 env2 env : Env) (row1 row2 : string) (col1 col2 : ColumnData)
        (t1 t2 now : Z) (refs : Refs) (item : string) :
  flatListRef refs = true ->
  focusedColumnId env = Some item ->
  item <> "" ->
  t2 <> 0 ->
  let refs1 :=
    fst (SidebarColumnItem_onPress (itemProps env1 row1) col1 t1 refs) in
  let refs2 :=
    fst (SidebarColumnItem_onPress (itemProps env2 row2) col2 t2 refs1) in
  sidebarLastClickedAtRef refs2 = t2
  /\ (now - t2 < 1000 -> scrollToFocus env refs2 now = [])
  /\ (t2 + 1000 <= now ->
      scrollToFocus env refs2 now
      = [ScrollToItem (mkScrollToItem true item (1 # 2))]).
Proof.
  intros Hlist Hfocus Hitem Ht2 refs1 refs2.
  assert (Hrefs : refs2 = mkRefs true t2).
  { unfold refs2, refs1, SidebarColumnItem_onPress, itemProps,
      onSidebarItemPress. simpl. rewrite Hlist. reflexivity. }
  rewrite Hrefs. simpl.
  apply truthy_string_true in Hitem. apply truthy_number_true in Ht2.
  split; [reflexivity|].
  rewrite !scrollToFocus_cases, Hfocus. simpl. rewrite Hitem, Ht2. simpl.
  split; intros H.
  - apply Z.ltb_lt in H. rewrite H. reflexivity.
  - assert (Hge : (now - t2 <? 1000) = false) by (apply Z.ltb_ge; lia).
    rewrite Hge. reflexivity.
Qed.

Lemma debounce_counts_latest_press_witness :
  scrollToFocus
    (mkEnv true "single-column" "1-small" (Some "column-b") 1
           ["column-a"; "column-b"] None None)
    (fst (SidebarColumnItem_onPress
            (itemProps
               (mkEnv true "single-column" "1-small" (Some "column-a") 0
                      ["column-a"; "column-b"] None None) "column-b")
            (mkColumn "column-b") 5000
            (fst (SidebarColumnItem_onPress
                    (itemProps
                       (mkEnv true "single-column" "1-small"
                              (Some "column-a") 0
                              ["column-a"; "column-b"] None None)
                       "column-a")
                    (mkColumn "column-a") 1000 (mkRefs true 0)))))
    5999
  = [].
Proof.
  refine (proj1 (proj2
    (debounce_counts_latest_press
       (mkEnv true "single-column" "1-small" (Some "column-a") 0
              ["column-a"; "column-b"] None None)
       (mkEnv true "single-column" "1-small" (Some "column-a") 0
              ["column-a"; "column-b"] None None)
       (mkEnv true "single-column" "1-small" (Some "column-b") 1
              ["column-a"; "column-b"] None None)
       "column-a" "column-b" (mkColumn "column-a") (mkColumn "column-b")
       1000 5000 5999 (mkRefs true 0) "column-b" _ _ _ _)) _).
  - reflexivity.
  - reflexivity.
  - discriminate.
  - discriminate.
  - reflexivity.
Defined.

End SidebarDebounce.
